(** * DQN agent wiring (distractors_benchmark/agent.py)

    A shallow embedding of [DQNAgent.__init__], [DQNAgent.update] and
    [encoding_spec].  The constructor only composes objects of external
    frameworks (reverb, acme, sonnet, tensorflow, trfl), so every framework
    object is represented by the arguments it was built from, every
    framework call is recorded in a trace and may raise, as the frameworks
    decide, and the network objects, which are mutated in place and
    deep-copied, live in a store indexed by object identity. *)

From Stdlib Require Import ZArith String List SpecFloat DecimalString.
From Stdlib Require DecimalPos DecimalZ.
From stdpp Require Import base option list strings gmap.

(** ** Python values and the operations of the language the source uses *)

Module Py.

(** Exceptions: the three the source's own expressions can raise, and
    what a framework call may raise. *)
Inductive exn :=
| IndexError
| OverflowError
| ZeroDivisionError
| ValueError
| Exception_ (name : string).

Inductive result (A : Type) := Ok (a : A) | Raise (e : exn).
Arguments Ok {A} a.
Arguments Raise {A} e.

(** An opaque Python object handed in by the caller (a learner class, a
    logger, a wandb handle, a user-made sonnet module). *)
Inductive object := Object (id : nat).

(** Python's [float] is IEEE-754 binary64. *)
Definition float := spec_float.
Definition prec : Z := 53.
Definition emax : Z := 1024.

(** The nearest binary64 to an integer, ties to even. *)
Definition nearest (n : Z) : float := binary_normalize prec emax n 0 false.

(** A float literal whose decimal value is [num / den], with [num] and
    [den] below 2^53: one correctly rounded division. *)
Definition float_literal (num den : Z) : float :=
  SFdiv prec emax (nearest num) (nearest den).

(** [float(n)] for an int [n]: rounds to nearest, raises [OverflowError]
    when the int is too large for a binary64. *)
Definition float_of_int (n : Z) : result float :=
  match nearest n with
  | S754_infinity _ => Raise OverflowError
  | x => Ok x
  end.

Definition is_zero (x : float) : bool :=
  match x with S754_zero _ => true | _ => false end.

(** [x / y] on floats: a zero divisor (of either sign) raises
    [ZeroDivisionError], anything else is the IEEE quotient. *)
Definition truediv (x y : float) : result float :=
  if is_zero y then Raise ZeroDivisionError else Ok (SFdiv prec emax x y).

(** [t[i]] on a tuple, with Python's negative indices. *)
Definition getitem {A} (t : list A) (i : Z) : result A :=
  let n := Z.of_nat (length t) in
  let j := if (i <? 0)%Z then (i + n)%Z else i in
  if ((j <? 0) || (n <=? j))%Z then Raise IndexError
  else match t !! Z.to_nat j with
       | Some x => Ok x
       | None => Raise IndexError
       end.

(** [str(n)] as used by an f-string. *)
Definition str (n : Z) : string := NilZero.string_of_int (Z.to_int n).

(** Truth value of a string: empty is false. *)
Definition bool_of_str (s : string) : bool :=
  match s with EmptyString => false | String _ _ => true end.

End Py.

(** ** Framework objects, each represented by what it was built from *)

(** Object identity of a network object in the store. *)
Abbreviation loc := positive.

Module specs.
(** [acme.specs.Array]. *)
Record Array := { shape : list Z; dtype : string; name : string }.
(** [acme.specs.DiscreteArray]: a scalar spec with [num_values] actions. *)
Record DiscreteArray := { num_values : Z }.
Record EnvironmentSpec := {
  observations : Array;
  actions : DiscreteArray;
  rewards : Array;
  discounts : Array }.
End specs.

Module tf.
(** The tensors the source handles: variables it creates itself and
    tensors the caller passes in as [epsilon]. *)
Inductive Tensor :=
| Variable_ (initial_value : Py.float) (trainable : bool)
| constant (value : Py.float).

(** What [encoding_spec] looks at in a tensor: its static shape and its
    dtype. *)
Record Meta := { shape : list Z; dtype : string }.
End tf.

Module reverb.
Module selectors.
Inductive t :=
| Prioritized (priority_exponent : Py.float)
| Fifo
| Lifo
| Uniform
| MaxHeap
| MinHeap.
End selectors.

Module rate_limiters.
Inductive t :=
| MinSize (min_size_to_sample : Z)
| SampleToInsertRatio (samples_per_insert : Py.float)
    (min_size_to_sample : Z) (error_buffer : Py.float).
End rate_limiters.

(** The table signature computed by [NStepTransitionAdder.signature]. *)
Inductive Signature :=
| NStepTransitionAdder_signature (environment_spec : specs.EnvironmentSpec).

Record Table := {
  name : string;
  sampler : selectors.t;
  remover : selectors.t;
  max_size : Z;
  rate_limiter : rate_limiters.t;
  signature : Signature }.

Record Server := { tables : list Table; port : Z }.

Inductive Client := mkClient (server_address : string).
Inductive TFClient := mkTFClient (server_address : string).
End reverb.

Module adders.
(** [acme.adders.reverb.DEFAULT_PRIORITY_TABLE]. *)
Definition DEFAULT_PRIORITY_TABLE : string := "priority_table".

Record NStepTransitionAdder := {
  client : reverb.Client;
  n_step : Z;
  discount : Py.float }.
End adders.

Module datasets.
(** The dataset returned by [make_reverb_dataset]. *)
Record Dataset := {
  server_address : string;
  batch_size : Z;
  prefetch_size : Z }.
End datasets.

Module snt.
(** A layer of a [snt.Sequential]: a network object (by reference), or the
    closure [lambda q: trfl.epsilon_greedy(q, epsilon=epsilon).sample()]
    with the [epsilon] it captured. *)
Inductive Layer :=
| network_layer (l : loc)
| epsilon_greedy_sample (epsilon : tf.Tensor).

Inductive Module_ :=
| Given (m : Py.object)
| Sequential (layers : list Layer).

(** What a [Sequential] computes on an input, symbolically: the layers
    are applied in order, each to the output of the one before. *)
Inductive Term :=
| Input
| Call (network : loc) (x : Term)
| Sample_epsilon_greedy (action_values : Term) (epsilon : tf.Tensor).

Definition apply_layer (x : Term) (f : Layer) : Term :=
  match f with
  | network_layer l => Call l x
  | epsilon_greedy_sample eps => Sample_epsilon_greedy x eps
  end.

Definition Sequential_call (layers : list Layer) (x : Term) : Term :=
  fold_left apply_layer layers x.
End snt.

Module actors.
Record FeedForwardActor := {
  policy_network : snt.Module_;
  adder : adders.NStepTransitionAdder }.
End actors.

Module learning.
(** The object returned by the [learner] callable, represented by the
    callable and the keyword arguments it received. *)
Record Learner := {
  cls : Py.object;
  network : loc;
  target_network : loc;
  discount : Py.float;
  importance_sampling_exponent : Py.float;
  learning_rate : Py.float;
  target_update_period : Z;
  dataset : datasets.Dataset;
  replay_client : reverb.TFClient;
  logger : option Py.object;
  checkpoint : bool;
  wandb : Py.object;
  beta : option Py.object }.

(** [dqn_learner.state]. *)
Inductive State := state (l : Learner).
End learning.

Module tf2_savers.
Record Checkpointer := {
  directory : string;
  objects_to_save : learning.State;
  subdirectory : string;
  time_delta_minutes : Py.float }.
End tf2_savers.

Module agent.
(** The arguments of [acme.agents.agent.Agent.__init__]. *)
Record Agent := {
  actor : actors.FeedForwardActor;
  learner : learning.Learner;
  min_observations : Z;
  observations_per_step : Py.float }.
End agent.

(** Which module of the network [tf2_utils.create_variables] is called on:
    the network itself, [network._decoder] or [network._projector]. *)
Inductive NetPart := Whole | Decoder | Projector.

(** The [input_spec] argument of [tf2_utils.create_variables]: the source
    passes a one-element list once and a bare spec otherwise. *)
Inductive InputSpec :=
| spec_list (l : list specs.Array)
| spec_one (a : specs.Array).

(** The calls into the frameworks, into the [networks] module and into the
    caller's [learner], each with what it is called on.  They are recorded
    in the order they are made; a call that raises is recorded too.
    [Learner_state] is the read of [dqn_learner.state], a property of an
    object of the caller's; reading an attribute of a framework object
    (the server's port, the shape of a spec) is not a call. *)
Inductive FrameworkCall :=
| Selector_init (sel : reverb.selectors.t)
| RateLimiter_init (r : reverb.rate_limiters.t)
| signature_call (environment_spec : specs.EnvironmentSpec)
| Table_init (t : reverb.Table)
| Server_start (s : reverb.Server)
| Client_init (server_address : string)
| Adder_init (adder : adders.NStepTransitionAdder)
| TFClient_init (server_address : string)
| make_reverb_dataset (d : datasets.Dataset)
| QNetworkWithEncoder_init (num_values dim : Z) (encoder_type : string)
    (encoder_feature_dim projection_feature_dim : Z)
| Variable_init (initial_value : Py.float) (trainable : bool)
| Sequential_init (layers : list snt.Layer)
| create_variables_call (part : NetPart) (network : loc)
| encode_call (network : loc) (x : tf.Meta)
| deepcopy_call (network : loc)
| Actor_init (actor : actors.FeedForwardActor)
| Learner_init (l : learning.Learner)
| Learner_state (l : learning.Learner)
| Checkpointer_init (c : tf2_savers.Checkpointer)
| Agent_init (a : agent.Agent)
| Agent_update
| Checkpointer_save (c : tf2_savers.Checkpointer).

(** ** The repository's [networks] module

    [QNetworkWithEncoder] is imported from the repository's own [networks]
    module, which is not part of the sources at hand: it is a parameter of
    the development.  [Net] is the state of one network object;
    [create_variables] is what [tf2_utils.create_variables] does to that
    state when called on the network or on one of its sub-modules, and
    [encode] gives the shape and dtype of [network.encode(x)]. *)
Class Networks := {
  Net : Type;
  QNetworkWithEncoder : Z → Z → string → Z → Z → Net;
  create_variables : NetPart → InputSpec → Net → Net;
  encode : Net → tf.Meta → tf.Meta }.

(** ** Effects: a store of network objects, a trace of framework calls,
       and Python exceptions *)

(** The world a call runs in.  [raises] is the behaviour of the frameworks:
    for each call, whether it raises and what.  Which calls a framework
    rejects is no part of the source, so it is left open here. *)
Record Store `{Networks} := {
  heap : gmap loc Net;
  (** the port the operating system hands to the next server started with
      [port=None] *)
  free_port : Z;
  (** the ports held by the servers that are running *)
  listening : gset Z;
  raises : FrameworkCall → option Py.exn }.

Record Outcome `{Networks} (A : Type) := {
  value : Py.result A;
  store : Store;
  trace : list FrameworkCall }.
Arguments value {_ A} o.
Arguments store {_ A} o.
Arguments trace {_ A} o.

Definition M `{Networks} (A : Type) : Type := Store → Outcome A.

#[export] Instance M_ret `{Networks} : MRet M :=
  λ A a s, {| value := Py.Ok a; store := s; trace := [] |}.

(** The calls [tr] came first. *)
Definition after `{Networks} {A} (tr : list FrameworkCall) (o : Outcome A)
    : Outcome A :=
  match o with
  | {| value := v; store := s; trace := tr' |} =>
      {| value := v; store := s; trace := tr ++ tr' |}
  end.

(** An exception stops the computation; the store and the calls made so far
    remain. *)
#[export] Instance M_bind `{Networks} : MBind M :=
  λ A B f m s,
    match m s with
    | {| value := Py.Ok a; store := s'; trace := tr |} => after tr (f a s')
    | {| value := Py.Raise e; store := s'; trace := tr |} =>
        {| value := Py.Raise e; store := s'; trace := tr |}
    end.

Section Effects.
Context `{Networks}.

(** An expression of the language itself, which may raise. *)
Definition eval {A} (r : Py.result A) : M A :=
  λ s, {| value := r; store := s; trace := [] |}.

(** A framework call: it is recorded, and raises if the frameworks say so.
    The network objects are left as they are. *)
Definition call (c : FrameworkCall) : M unit :=
  λ s, match raises s c with
       | Some e => {| value := Py.Raise e; store := s; trace := [c] |}
       | None => {| value := Py.Ok tt; store := s; trace := [c] |}
       end.

(** A new network object. *)
Definition new (v : Net) : M loc :=
  λ s, let l := fresh (dom (heap s)) in
       {| value := Py.Ok l;
          store := {| heap := <[l := v]> (heap s);
                      free_port := free_port s;
                      listening := listening s;
                      raises := raises s |};
          trace := [] |}.

(** In-place mutation of the object at [l]. *)
Definition mutate (l : loc) (f : Net → Net) : M unit :=
  λ s, {| value := Py.Ok tt;
          store := {| heap := alter f l (heap s);
                      free_port := free_port s;
                      listening := listening s;
                      raises := raises s |};
          trace := [] |}.

(** [copy.deepcopy(obj)]: a new object with the contents [obj] has now. *)
Definition deepcopy (l : loc) : M loc :=
  λ s, let l' := fresh (dom (heap s)) in
       {| value := Py.Ok l';
          store := {| heap := partial_alter (λ _, heap s !! l) l' (heap s);
                      free_port := free_port s;
                      listening := listening s;
                      raises := raises s |};
          trace := [] |}.

(** [reverb.Server(tables, port=None)]: the server takes the port the
    operating system hands out and holds it; the next server gets a port
    that no running server holds. *)
Definition reverb_Server (tables : list reverb.Table) : M reverb.Server :=
  λ s, let srv := {| reverb.tables := tables; reverb.port := free_port s |} in
       match raises s (Server_start srv) with
       | Some e =>
           {| value := Py.Raise e; store := s; trace := [Server_start srv] |}
       | None =>
           let held := {[free_port s]} ∪ listening s in
           {| value := Py.Ok srv;
              store := {| heap := heap s;
                          free_port := fresh held;
                          listening := held;
                          raises := raises s |};
              trace := [Server_start srv] |}
       end.
End Effects.

(** ** [encoding_spec] and the helpers of [acme.tf.utils] it uses *)

Definition zeros_like (spec : specs.Array) : tf.Meta :=
  {| tf.shape := specs.shape spec; tf.dtype := specs.dtype spec |}.

Definition add_batch_dim (x : tf.Meta) : tf.Meta :=
  {| tf.shape := 1%Z :: tf.shape x; tf.dtype := tf.dtype x |}.

(** Returns the Acme spec for the encoder output. *)
Definition encoding_spec `{Networks} (network : Net)
    (observation_spec : specs.Array) : specs.Array :=
  let dummy_input := zeros_like observation_spec in
  let encoding := encode network (add_batch_dim dummy_input) in
  {| specs.shape := tf.shape encoding;
     specs.dtype := tf.dtype encoding;
     specs.name := "Encoding" |}.

(** ** The agent *)

Module DQNAgent.

(** The arguments of the constructor. *)
Record Args := {
  learner : Py.object;
  wandb : Py.object;
  environment_spec : specs.EnvironmentSpec;
  encoder_type : string;
  encoder_feature_dim : Z;
  projection_feature_dim : Z;
  batch_size : Z;
  prefetch_size : Z;
  target_update_period : Z;
  samples_per_insert : Py.float;
  min_replay_size : Z;
  max_replay_size : Z;
  importance_sampling_exponent : Py.float;
  priority_exponent : Py.float;
  n_step : Z;
  epsilon : option tf.Tensor;
  learning_rate : Py.float;
  discount : Py.float;
  logger : option Py.object;
  checkpoint : bool;
  checkpoint_subpath : string;
  policy_network : option snt.Module_;
  beta : option Py.object }.

(** The signature's default values. *)
Definition defaults (learner wandb : Py.object)
    (environment_spec : specs.EnvironmentSpec) : Args :=
  {| learner := learner;
     wandb := wandb;
     environment_spec := environment_spec;
     encoder_type := "mlp";
     encoder_feature_dim := 6;
     projection_feature_dim := 6;
     batch_size := 256;
     prefetch_size := 4;
     target_update_period := 100;
     samples_per_insert := Py.float_literal 32 1;
     min_replay_size := 1000;
     max_replay_size := 1000000;
     importance_sampling_exponent := Py.float_literal 2 10;
     priority_exponent := Py.float_literal 6 10;
     n_step := 5;
     epsilon := None;
     learning_rate := Py.float_literal 1 1000;
     discount := Py.float_literal 99 100;
     logger := None;
     checkpoint := true;
     checkpoint_subpath := "~/acme/";
     policy_network := None;
     beta := None |}.

(** The same call with another [epsilon] argument. *)
Definition with_epsilon (e : option tf.Tensor) (a : Args) : Args :=
  {| learner := learner a;
     wandb := wandb a;
     environment_spec := environment_spec a;
     encoder_type := encoder_type a;
     encoder_feature_dim := encoder_feature_dim a;
     projection_feature_dim := projection_feature_dim a;
     batch_size := batch_size a;
     prefetch_size := prefetch_size a;
     target_update_period := target_update_period a;
     samples_per_insert := samples_per_insert a;
     min_replay_size := min_replay_size a;
     max_replay_size := max_replay_size a;
     importance_sampling_exponent := importance_sampling_exponent a;
     priority_exponent := priority_exponent a;
     n_step := n_step a;
     epsilon := e;
     learning_rate := learning_rate a;
     discount := discount a;
     logger := logger a;
     checkpoint := checkpoint a;
     checkpoint_subpath := checkpoint_subpath a;
     policy_network := policy_network a;
     beta := beta a |}.

(** The object's attributes, the parent class's being the arguments its
    constructor was given. *)
Record t := {
  _server : reverb.Server;
  network : loc;
  _checkpointer : option tf2_savers.Checkpointer;
  super : agent.Agent }.

Section Methods.
Context `{Networks}.

Definition __init__ (a : Args) : M t :=
  (* Create a replay server to add data to. *)
  let sampler := reverb.selectors.Prioritized (priority_exponent a) in
  call (Selector_init sampler);;
  let remover := reverb.selectors.Fifo in
  call (Selector_init remover);;
  let rate_limiter := reverb.rate_limiters.MinSize 1 in
  call (RateLimiter_init rate_limiter);;
  call (signature_call (environment_spec a));;
  let replay_table :=
    {| reverb.name := adders.DEFAULT_PRIORITY_TABLE;
       reverb.sampler := sampler;
       reverb.remover := remover;
       reverb.max_size := max_replay_size a;
       reverb.rate_limiter := rate_limiter;
       reverb.signature :=
         reverb.NStepTransitionAdder_signature (environment_spec a) |} in
  call (Table_init replay_table);;
  _server ← reverb_Server [replay_table];
  (* The adder is used to insert observations into replay. *)
  let address := ("localhost:" +:+ Py.str (reverb.port _server))%string in
  call (Client_init address);;
  let adder :=
    {| adders.client := reverb.mkClient address;
       adders.n_step := n_step a;
       adders.discount := discount a |} in
  call (Adder_init adder);;
  (* The dataset provides an interface to sample from replay. *)
  call (TFClient_init address);;
  let replay_client := reverb.mkTFClient address in
  let dataset :=
    {| datasets.server_address := address;
       datasets.batch_size := batch_size a;
       datasets.prefetch_size := prefetch_size a |} in
  call (make_reverb_dataset dataset);;
  (* Create a Q-network. *)
  let observations := specs.observations (environment_spec a) in
  let num_values := specs.num_values (specs.actions (environment_spec a)) in
  dim ← eval (Py.getitem (specs.shape observations) 0);
  call (QNetworkWithEncoder_init num_values dim (encoder_type a)
          (encoder_feature_dim a) (projection_feature_dim a));;
  network ← new (QNetworkWithEncoder num_values dim (encoder_type a)
                   (encoder_feature_dim a) (projection_feature_dim a));
  (* Create epsilon greedy policy network by default. *)
  policy_network ←
    match policy_network a with
    | None =>
        (* Use constant 0.05 epsilon greedy policy by default. *)
        epsilon ←
          match epsilon a with
          | None =>
              call (Variable_init (Py.float_literal 5 100) false);;
              mret (tf.Variable_ (Py.float_literal 5 100) false)
          | Some epsilon => mret epsilon
          end;
        let layers :=
          [snt.network_layer network; snt.epsilon_greedy_sample epsilon] in
        call (Sequential_init layers);;
        mret (snt.Sequential layers)
    | Some policy_network => mret policy_network
    end;
  (* Ensure that we create the variables before proceeding. *)
  call (create_variables_call Whole network);;
  mutate network (create_variables Whole (spec_list [observations]));;
  (* encoding_spec(self.network, ...) runs the encoder on a dummy batch;
     its result is what the decoder's variables are created for *)
  call (encode_call network (add_batch_dim (zeros_like observations)));;
  call (create_variables_call Decoder network);;
  mutate network (λ n,
    create_variables Decoder (spec_one (encoding_spec n observations)) n);;
  (if Py.bool_of_str (encoder_type a)
   then
     call (encode_call network (add_batch_dim (zeros_like observations)));;
     call (create_variables_call Projector network);;
     mutate network (λ n,
       create_variables Projector
         (spec_one (encoding_spec n observations)) n)
   else mret tt);;
  (* Create a target network. *)
  call (deepcopy_call network);;
  target_network ← deepcopy network;
  (* Create the actor which defines how we take actions. *)
  let actor :=
    {| actors.policy_network := policy_network; actors.adder := adder |} in
  call (Actor_init actor);;
  (* The learner updates the parameters (and initializes them). *)
  let dqn_learner :=
    {| learning.cls := learner a;
       learning.network := network;
       learning.target_network := target_network;
       learning.discount := discount a;
       learning.importance_sampling_exponent :=
         importance_sampling_exponent a;
       learning.learning_rate := learning_rate a;
       learning.target_update_period := target_update_period a;
       learning.dataset := dataset;
       learning.replay_client := replay_client;
       learning.logger := logger a;
       learning.checkpoint := checkpoint a;
       learning.wandb := wandb a;
       learning.beta := beta a |} in
  call (Learner_init dqn_learner);;
  _checkpointer ←
    (if checkpoint a
     then
       call (Learner_state dqn_learner);;
       let c :=
         {| tf2_savers.directory := checkpoint_subpath a;
            tf2_savers.objects_to_save := learning.state dqn_learner;
            tf2_savers.subdirectory := "dqn_learner";
            tf2_savers.time_delta_minutes := Py.float_literal 60 1 |} in
       call (Checkpointer_init c);; mret (Some c)
     else mret None);
  let min_observations := Z.max (batch_size a) (min_replay_size a) in
  x ← eval (Py.float_of_int (batch_size a));
  observations_per_step ← eval (Py.truediv x (samples_per_insert a));
  let super :=
    {| agent.actor := actor;
       agent.learner := dqn_learner;
       agent.min_observations := min_observations;
       agent.observations_per_step := observations_per_step |} in
  call (Agent_init super);;
  mret {| _server := _server;
          network := network;
          _checkpointer := _checkpointer;
          super := super |}.

(** The parent's [update] runs first; if it raises, nothing is saved. *)
Definition update (self : t) : M unit :=
  call Agent_update;;
  match _checkpointer self with
  | Some c => call (Checkpointer_save c)
  | None => mret tt
  end.

End Methods.
End DQNAgent.

(** ** Reading a trace *)

Definition servers_started (tr : list FrameworkCall) : list reverb.Server :=
  omap (λ c, match c with Server_start s => Some s | _ => None end) tr.

Definition tables_stood_up (tr : list FrameworkCall) : list reverb.Table :=
  servers_started tr ≫= reverb.tables.

Definition datasets_made (tr : list FrameworkCall) : list datasets.Dataset :=
  omap (λ c, match c with make_reverb_dataset d => Some d | _ => None end) tr.

Definition learners_made (tr : list FrameworkCall) : list learning.Learner :=
  omap (λ c, match c with Learner_init l => Some l | _ => None end) tr.

Definition checkpointers_made (tr : list FrameworkCall)
    : list tf2_savers.Checkpointer :=
  omap (λ c, match c with Checkpointer_init c => Some c | _ => None end) tr.

Definition parent_inits (tr : list FrameworkCall) : list agent.Agent :=
  omap (λ c, match c with Agent_init a => Some a | _ => None end) tr.

Definition tables_made (tr : list FrameworkCall) : list reverb.Table :=
  omap (λ c, match c with Table_init t => Some t | _ => None end) tr.

Definition saves (tr : list FrameworkCall) : list tf2_savers.Checkpointer :=
  omap (λ c, match c with Checkpointer_save c => Some c | _ => None end) tr.

(** Every call of [tr] is one the frameworks of [s] let return. *)
Definition all_return `{Networks} (s : Store) (tr : list FrameworkCall)
    : Prop :=
  ∀ c, c ∈ tr → raises s c = None.

(** The address the constructor derives from the server it started. *)
Definition address_of (s : reverb.Server) : string :=
  ("localhost:" +:+ Py.str (reverb.port s))%string.

(** ** A small instance of [networks], to run the model on concrete inputs *)

Module sample.

Record net := {
  num_actions : Z;
  input_dim : Z;
  encoder : string;
  feature_dim : Z;
  projection_dim : Z;
  built : list NetPart }.

#[global] Instance networks : Networks := {|
  Net := net;
  QNetworkWithEncoder na d e f p :=
    {| num_actions := na; input_dim := d; encoder := e; feature_dim := f;
       projection_dim := p; built := [] |};
  create_variables part _ n :=
    {| num_actions := num_actions n; input_dim := input_dim n;
       encoder := encoder n; feature_dim := feature_dim n;
       projection_dim := projection_dim n; built := built n ++ [part] |};
  encode n x :=
    {| tf.shape := [1%Z; feature_dim n]; tf.dtype := "float32" |} |}.

(** No network object yet, no server running, port 41000 free, and
    frameworks that let every call return. *)
Definition empty_store : Store :=
  {| heap := ∅; free_port := 41000; listening := ∅; raises := λ _, None |}.

(** The same, with frameworks that reject a table without room and a
    dataset without a positive batch size, as reverb and tensorflow do. *)
Definition validating_store : Store :=
  {| heap := ∅; free_port := 41000; listening := ∅;
     raises := λ c,
       match c with
       | Table_init t =>
           if (reverb.max_size t <=? 0)%Z then Some Py.ValueError else None
       | make_reverb_dataset d =>
           if (datasets.batch_size d <=? 0)%Z then Some Py.ValueError
           else None
       | _ => None
       end |}.

Definition float32_array (shape : list Z) (name : string) : specs.Array :=
  {| specs.shape := shape; specs.dtype := "float32"; specs.name := name |}.

(** A 4-dimensional observation and 2 actions. *)
Definition cartpole : specs.EnvironmentSpec :=
  {| specs.observations := float32_array [4%Z] "observation";
     specs.actions := {| specs.num_values := 2 |};
     specs.rewards := float32_array [] "reward";
     specs.discounts := float32_array [] "discount" |}.

(** A scalar observation: its shape is the empty tuple. *)
Definition scalar_env : specs.EnvironmentSpec :=
  {| specs.observations := float32_array [] "observation";
     specs.actions := {| specs.num_values := 2 |};
     specs.rewards := float32_array [] "reward";
     specs.discounts := float32_array [] "discount" |}.

(** The default call on [cartpole]. *)
Definition args : DQNAgent.Args :=
  DQNAgent.defaults (Py.Object 1) (Py.Object 2) cartpole.

(** Calls that differ from the default one in the arguments listed. *)
Definition make (env : specs.EnvironmentSpec) (batch_size : Z)
    (samples_per_insert : Py.float) (epsilon : option tf.Tensor)
    (checkpoint : bool) (policy_network : option snt.Module_)
    : DQNAgent.Args :=
  {| DQNAgent.learner := Py.Object 1;
     DQNAgent.wandb := Py.Object 2;
     DQNAgent.environment_spec := env;
     DQNAgent.encoder_type := "mlp";
     DQNAgent.encoder_feature_dim := 6;
     DQNAgent.projection_feature_dim := 6;
     DQNAgent.batch_size := batch_size;
     DQNAgent.prefetch_size := 4;
     DQNAgent.target_update_period := 100;
     DQNAgent.samples_per_insert := samples_per_insert;
     DQNAgent.min_replay_size := 1000;
     DQNAgent.max_replay_size := 1000000;
     DQNAgent.importance_sampling_exponent := Py.float_literal 2 10;
     DQNAgent.priority_exponent := Py.float_literal 6 10;
     DQNAgent.n_step := 5;
     DQNAgent.epsilon := epsilon;
     DQNAgent.learning_rate := Py.float_literal 1 1000;
     DQNAgent.discount := Py.float_literal 99 100;
     DQNAgent.logger := None;
     DQNAgent.checkpoint := checkpoint;
     DQNAgent.checkpoint_subpath := "~/acme/";
     DQNAgent.policy_network := policy_network;
     DQNAgent.beta := None |}.

Definition thirty_two : Py.float := Py.float_literal 32 1.
Definition zero : Py.float := S754_zero false.

(** A policy module made by the caller. *)
Definition my_policy : snt.Module_ := snt.Given (Py.Object 3).

(** The default call with a policy network of the caller's. *)
Definition args_with_policy : DQNAgent.Args :=
  make cartpole 256 thirty_two None true (Some my_policy).

(** The default call with [samples_per_insert=0.0]. *)
Definition args_zero_samples : DQNAgent.Args :=
  make cartpole 256 zero None true None.

(** A call with [batch_size=2000], above the default [min_replay_size],
    and without checkpointing. *)
Definition args_large_batch : DQNAgent.Args :=
  make cartpole 2000 thirty_two None false None.

(** The default call on an environment with scalar observations. *)
Definition args_scalar : DQNAgent.Args :=
  make scalar_env 256 thirty_two None true None.

(** The default call with [max_replay_size=0]. *)
Definition args_no_room : DQNAgent.Args :=
  {| DQNAgent.learner := Py.Object 1;
     DQNAgent.wandb := Py.Object 2;
     DQNAgent.environment_spec := cartpole;
     DQNAgent.encoder_type := "mlp";
     DQNAgent.encoder_feature_dim := 6;
     DQNAgent.projection_feature_dim := 6;
     DQNAgent.batch_size := 256;
     DQNAgent.prefetch_size := 4;
     DQNAgent.target_update_period := 100;
     DQNAgent.samples_per_insert := thirty_two;
     DQNAgent.min_replay_size := 1000;
     DQNAgent.max_replay_size := 0;
     DQNAgent.importance_sampling_exponent := Py.float_literal 2 10;
     DQNAgent.priority_exponent := Py.float_literal 6 10;
     DQNAgent.n_step := 5;
     DQNAgent.epsilon := None;
     DQNAgent.learning_rate := Py.float_literal 1 1000;
     DQNAgent.discount := Py.float_literal 99 100;
     DQNAgent.logger := None;
     DQNAgent.checkpoint := true;
     DQNAgent.checkpoint_subpath := "~/acme/";
     DQNAgent.policy_network := None;
     DQNAgent.beta := None |}.

(** A world in which the parent class's [update] raises. *)
Definition failing_update_store : Store :=
  {| heap := ∅; free_port := 41000; listening := ∅;
     raises := λ c,
       match c with
       | Agent_update => Some Py.ZeroDivisionError
       | _ => None
       end |}.

End sample.


(** * Properties *)

(** ** Symbolic execution of the constructor *)

Ltac run :=
  lazy beta iota zeta delta
    [DQNAgent.__init__ DQNAgent.update mbind M_bind mret M_ret after call
     eval new mutate deepcopy reverb_Server value store trace heap free_port
     listening raises reverb.port reverb.tables app].

(** The next thing the run in the goal branches on: the answer of the
    frameworks to a call, the lookup of the first dimension, the optional
    arguments, the truth value of [encoder_type], [checkpoint], the
    conversion of [batch_size] or the division. *)
Ltac split_next :=
  match goal with
  | |- context [match ?r ?c with Some _ => _ | None => _ end] =>
      is_var r; destruct (r c) eqn:?
  | |- context [match Py.getitem ?t ?i with _ => _ end] =>
      destruct (Py.getitem t i) eqn:?
  | |- context [match DQNAgent.policy_network ?a with _ => _ end] =>
      destruct (DQNAgent.policy_network a) eqn:?
  | |- context [match DQNAgent.epsilon ?a with _ => _ end] =>
      destruct (DQNAgent.epsilon a) eqn:?
  | |- context [if Py.bool_of_str ?e then _ else _] =>
      destruct (Py.bool_of_str e) eqn:?
  | |- context [if DQNAgent.checkpoint ?a then _ else _] =>
      destruct (DQNAgent.checkpoint a) eqn:?
  | |- context [match Py.float_of_int ?n with _ => _ end] =>
      destruct (Py.float_of_int n) eqn:?
  | |- context [match Py.truediv ?x ?y with _ => _ end] =>
      destruct (Py.truediv x y) eqn:?
  end.

Ltac init_cases := run; repeat (split_next; run).

(** The same, with the rest of the goal set aside while the constructor
    runs. *)
Ltac init_outcomes :=
  match goal with
  | |- context [DQNAgent.__init__ ?a ?s] => pattern (DQNAgent.__init__ a s)
  end;
  let P := fresh "P" in
  match goal with |- ?Q _ => set (P := Q) end;
  init_cases; subst P; cbv beta; run.

(** Membership in a list that is written out. *)
Ltac in_list Hin :=
  repeat (apply elem_of_cons in Hin as [-> | Hin]; [assumption|]);
  by apply elem_of_nil in Hin.

Example float_literal_0_05 :
  Py.float_literal 5 100 = S754_finite false 7205759403792794 (-57).
Proof. reflexivity. Qed.

Example float_literal_60 : Py.float_literal 60 1 = Py.nearest 60.
Proof. reflexivity. Qed.

Example float_of_int_256 :
  Py.float_of_int 256 = Py.Ok (S754_finite false 4503599627370496 (-44)).
Proof. reflexivity. Qed.

Example float_of_int_huge : Py.float_of_int (2 ^ 1024) = Py.Raise Py.OverflowError.
Proof. reflexivity. Qed.

Example address_of_41000 :
  address_of {| reverb.tables := []; reverb.port := 41000 |} = "localhost:41000".
Proof. reflexivity. Qed.

Lemma getitem_0_cons {A} (d : A) ds : Py.getitem (d :: ds) 0 = Py.Ok d.
Proof. reflexivity. Qed.

Lemma getitem_0_nil {A} : Py.getitem (@nil A) 0 = Py.Raise Py.IndexError.
Proof. reflexivity. Qed.

Lemma getitem_0_Ok {A} (t : list A) d :
  Py.getitem t 0 = Py.Ok d ↔ ∃ ds, t = d :: ds.
Proof.
  destruct t as [|d' ds].
  - rewrite getitem_0_nil. split; [discriminate | intros [? [=]]].
  - rewrite getitem_0_cons. split.
    + intros [= ->]. by exists ds.
    + by intros [? [= -> _]].
Qed.

Lemma getitem_0_Raise {A} (t : list A) e :
  Py.getitem t 0 = Py.Raise e ↔ t = [] ∧ e = Py.IndexError.
Proof.
  destruct t as [|d' ds].
  - rewrite getitem_0_nil. split; [by intros [= <-] | by intros [_ ->]].
  - rewrite getitem_0_cons. split; [discriminate | by intros [[=] _]].
Qed.

(** [float(n)] raises nothing but [OverflowError]. *)
Lemma float_of_int_Raise n e :
  Py.float_of_int n = Py.Raise e → e = Py.OverflowError.
Proof.
  unfold Py.float_of_int. destruct (Py.nearest n); intros [=]; congruence.
Qed.

(** [float(n)], when it returns, is the nearest float. *)
Lemma float_of_int_Ok n x : Py.float_of_int n = Py.Ok x → x = Py.nearest n.
Proof.
  unfold Py.float_of_int. destruct (Py.nearest n); intros [=]; congruence.
Qed.

(** The division fails exactly on a zero divisor, and then with
    [ZeroDivisionError]. *)
Lemma truediv_Raise x y e :
  Py.truediv x y = Py.Raise e ↔ Py.is_zero y = true ∧ e = Py.ZeroDivisionError.
Proof.
  unfold Py.truediv. destruct (Py.is_zero y); split.
  - by intros [= <-].
  - by intros [_ ->].
  - discriminate.
  - by intros [[=] _].
Qed.

Lemma truediv_Ok x y q :
  Py.truediv x y = Py.Ok q ↔
  Py.is_zero y = false ∧ q = SFdiv Py.prec Py.emax x y.
Proof.
  unfold Py.truediv. destruct (Py.is_zero y); split.
  - discriminate.
  - by intros [[=] _].
  - by intros [= <-].
  - by intros [_ ->].
Qed.

Section Properties.
Context `{Networks}.
Implicit Types (a : DQNAgent.Args) (s : Store) (h : gmap loc Net).

(** A deep copy lands on a new identity and holds what the original
    holds. *)
Lemma deepcopy_lookup h l v :
  h !! l = Some v →
  let l' := fresh (dom h) in
  let h' := partial_alter (λ _, h !! l) l' h in
  l ≠ l' ∧ h !! l' = None ∧ h' !! l = Some v ∧ h' !! l' = Some v.
Proof.
  intros Hl l' h'.
  assert (Hfresh : h !! l' = None) by apply not_elem_of_dom, is_fresh.
  assert (Hne : l ≠ l') by congruence.
  repeat split; [done..| |].
  - unfold h'. by rewrite lookup_partial_alter_ne.
  - unfold h'. by rewrite lookup_partial_alter_eq.
Qed.

(** The store after the online network [l], allocated in [h], has been
    built up to [h0] and then deep-copied: the copy is a second, new
    object with the same contents. *)
Lemma deepcopy_built h h0 l v :
  h !! l = None →
  (∀ l', l ≠ l' → h0 !! l' = h !! l') →
  h0 !! l = Some v →
  let l' := fresh (dom h0) in
  let h' := partial_alter (λ _, h0 !! l) l' h0 in
  l ≠ l' ∧ h !! l = None ∧ h !! l' = None ∧
  h' !! l = Some v ∧ h' !! l' = Some v.
Proof.
  intros Hnew Hsame Hl l' h'.
  destruct (deepcopy_lookup h0 l v Hl) as (Hne & Hfresh & Hl1 & Hl2).
  fold l' in Hne, Hfresh. fold h' in Hl1, Hl2.
  repeat split; try done. by rewrite <- Hsame.
Qed.

(** Everything about a call that returns: which arguments let it return,
    the agent it returns, the calls it has made and the network objects it
    leaves. *)
Lemma init_returns a s agent :
  let o := DQNAgent.__init__ a s in
  value o = Py.Ok agent →
  ∃ d ds x target,
    let observations := specs.observations (DQNAgent.environment_spec a) in
    let online := fresh (dom (heap s)) in
    let table :=
      {| reverb.name := adders.DEFAULT_PRIORITY_TABLE;
         reverb.sampler :=
           reverb.selectors.Prioritized (DQNAgent.priority_exponent a);
         reverb.remover := reverb.selectors.Fifo;
         reverb.max_size := DQNAgent.max_replay_size a;
         reverb.rate_limiter := reverb.rate_limiters.MinSize 1;
         reverb.signature :=
           reverb.NStepTransitionAdder_signature
             (DQNAgent.environment_spec a) |} in
    let server :=
      {| reverb.tables := [table]; reverb.port := free_port s |} in
    let adder :=
      {| adders.client := reverb.mkClient (address_of server);
         adders.n_step := DQNAgent.n_step a;
         adders.discount := DQNAgent.discount a |} in
    let dataset :=
      {| datasets.server_address := address_of server;
         datasets.batch_size := DQNAgent.batch_size a;
         datasets.prefetch_size := DQNAgent.prefetch_size a |} in
    let policy :=
      match DQNAgent.policy_network a with
      | Some given => given
      | None =>
          snt.Sequential
            [snt.network_layer online;
             snt.epsilon_greedy_sample
               match DQNAgent.epsilon a with
               | Some e => e
               | None => tf.Variable_ (Py.float_literal 5 100) false
               end]
      end in
    let learner :=
      {| learning.cls := DQNAgent.learner a;
         learning.network := online;
         learning.target_network := target;
         learning.discount := DQNAgent.discount a;
         learning.importance_sampling_exponent :=
           DQNAgent.importance_sampling_exponent a;
         learning.learning_rate := DQNAgent.learning_rate a;
         learning.target_update_period := DQNAgent.target_update_period a;
         learning.dataset := dataset;
         learning.replay_client := reverb.mkTFClient (address_of server);
         learning.logger := DQNAgent.logger a;
         learning.checkpoint := DQNAgent.checkpoint a;
         learning.wandb := DQNAgent.wandb a;
         learning.beta := DQNAgent.beta a |} in
    let checkpointer :=
      {| tf2_savers.directory := DQNAgent.checkpoint_subpath a;
         tf2_savers.objects_to_save := learning.state learner;
         tf2_savers.subdirectory := "dqn_learner";
         tf2_savers.time_delta_minutes := Py.float_literal 60 1 |} in
    let parent :=
      {| agent.actor :=
           {| actors.policy_network := policy; actors.adder := adder |};
         agent.learner := learner;
         agent.min_observations :=
           Z.max (DQNAgent.batch_size a) (DQNAgent.min_replay_size a);
         agent.observations_per_step :=
           SFdiv Py.prec Py.emax x (DQNAgent.samples_per_insert a) |} in
    let n0 :=
      QNetworkWithEncoder
        (specs.num_values (specs.actions (DQNAgent.environment_spec a))) d
        (DQNAgent.encoder_type a) (DQNAgent.encoder_feature_dim a)
        (DQNAgent.projection_feature_dim a) in
    let n1 := create_variables Whole (spec_list [observations]) n0 in
    let n2 :=
      create_variables Decoder (spec_one (encoding_spec n1 observations)) n1 in
    let n3 :=
      if Py.bool_of_str (DQNAgent.encoder_type a)
      then create_variables Projector
             (spec_one (encoding_spec n2 observations)) n2
      else n2 in
    specs.shape observations = d :: ds ∧
    Py.float_of_int (DQNAgent.batch_size a) = Py.Ok x ∧
    Py.is_zero (DQNAgent.samples_per_insert a) = false ∧
    agent =
      {| DQNAgent._server := server;
         DQNAgent.network := online;
         DQNAgent._checkpointer :=
           if DQNAgent.checkpoint a then Some checkpointer else None;
         DQNAgent.super := parent |} ∧
    tables_made (trace o) = [table] ∧
    servers_started (trace o) = [server] ∧
    datasets_made (trace o) = [dataset] ∧
    learners_made (trace o) = [learner] ∧
    checkpointers_made (trace o) =
      (if DQNAgent.checkpoint a then [checkpointer] else []) ∧
    parent_inits (trace o) = [parent] ∧
    all_return s (trace o) ∧
    online ≠ target ∧
    heap s !! online = None ∧
    heap s !! target = None ∧
    heap (store o) !! online = Some n3 ∧
    heap (store o) !! target = Some n3.
Proof.
  destruct s as [h p ls r]. revert agent. cbv zeta.
  init_outcomes.
  all: intros agent [= <-].
  all: repeat match goal with
         | Hg : Py.getitem _ 0 = Py.Ok _ |- _ =>
             apply getitem_0_Ok in Hg as [? Hg]
         | Hd : Py.truediv _ _ = Py.Ok _ |- _ =>
             apply truediv_Ok in Hd as [Hd ->]
         end.
  all: eexists _, _, _, _.
  all: do 3 (split; [eassumption || reflexivity|]).
  all: split; [reflexivity|].
  all: do 6 (split; [reflexivity|]).
  all: split; [intros c Hin; in_list Hin|].
  all: apply deepcopy_built.
  all: try apply not_elem_of_dom, is_fresh.
  all: try (intros l' Hne; by rewrite !lookup_alter_ne, lookup_insert_ne).
  all: by rewrite !lookup_alter_eq, lookup_insert_eq.
Qed.

(** What any call, returning or not, has asked of the frameworks: at most
    one table, server, dataset, learner and checkpointer, each with these
    arguments, and each only after the one before it. *)
Lemma init_calls a s :
  let o := DQNAgent.__init__ a s in
  let table :=
    {| reverb.name := adders.DEFAULT_PRIORITY_TABLE;
       reverb.sampler :=
         reverb.selectors.Prioritized (DQNAgent.priority_exponent a);
       reverb.remover := reverb.selectors.Fifo;
       reverb.max_size := DQNAgent.max_replay_size a;
       reverb.rate_limiter := reverb.rate_limiters.MinSize 1;
       reverb.signature :=
         reverb.NStepTransitionAdder_signature
           (DQNAgent.environment_spec a) |} in
  let server := {| reverb.tables := [table]; reverb.port := free_port s |} in
  let dataset :=
    {| datasets.server_address := address_of server;
       datasets.batch_size := DQNAgent.batch_size a;
       datasets.prefetch_size := DQNAgent.prefetch_size a |} in
  (tables_made (trace o) = [] ∨ tables_made (trace o) = [table]) ∧
  (servers_started (trace o) = [] ∨ servers_started (trace o) = [server]) ∧
  (datasets_made (trace o) = [] ∨
   datasets_made (trace o) = [dataset] ∧
   servers_started (trace o) = [server]) ∧
  (learners_made (trace o) = [] ∨
   ∃ online target,
     datasets_made (trace o) = [dataset] ∧
     learners_made (trace o) =
       [{| learning.cls := DQNAgent.learner a;
           learning.network := online;
           learning.target_network := target;
           learning.discount := DQNAgent.discount a;
           learning.importance_sampling_exponent :=
             DQNAgent.importance_sampling_exponent a;
           learning.learning_rate := DQNAgent.learning_rate a;
           learning.target_update_period := DQNAgent.target_update_period a;
           learning.dataset := dataset;
           learning.replay_client := reverb.mkTFClient (address_of server);
           learning.logger := DQNAgent.logger a;
           learning.checkpoint := DQNAgent.checkpoint a;
           learning.wandb := DQNAgent.wandb a;
           learning.beta := DQNAgent.beta a |}]) ∧
  (parent_inits (trace o) = [] ∨
   Py.is_zero (DQNAgent.samples_per_insert a) = false).
Proof.
  destruct s as [h p ls r]. cbv zeta.
  init_outcomes.
  all: repeat split.
  all: try (by left).
  all: right.
  all: try reflexivity.
  all: try (by split).
  all: try (by eexists _, _).
  all: match goal with
       | Hd : Py.truediv _ _ = Py.Ok _ |- _ =>
           by apply truediv_Ok in Hd as [? _]
       end.
Qed.

(** What becomes of a call in which every framework call returns: the
    lookup of the first dimension, the conversion of [batch_size] and the
    division are then all that can stop it. *)
Lemma init_own_outcome a s :
  let o := DQNAgent.__init__ a s in
  all_return s (trace o) →
  match
    specs.shape (specs.observations (DQNAgent.environment_spec a))
  with
  | [] =>
      value o = Py.Raise Py.IndexError ∧
      heap (store o) = heap s ∧
      learners_made (trace o) = [] ∧
      ∃ srv, servers_started (trace o) = [srv]
  | _ :: _ =>
      match Py.float_of_int (DQNAgent.batch_size a) with
      | Py.Raise _ =>
          value o = Py.Raise Py.OverflowError ∧ parent_inits (trace o) = []
      | Py.Ok _ =>
          if Py.is_zero (DQNAgent.samples_per_insert a)
          then value o = Py.Raise Py.ZeroDivisionError ∧
               parent_inits (trace o) = []
          else ∃ agent, value o = Py.Ok agent
      end
  end.
Proof.
  destruct s as [h p ls r]. cbv zeta.
  init_outcomes.
  all: intros Hall.
  (* a framework call that raised is in the trace *)
  all: try match goal with
       | Hr : ?f ?c = Some _ |- _ =>
           is_var f; rewrite Hall in Hr; [discriminate Hr|];
           repeat first [apply list_elem_of_here | apply list_elem_of_further]
       end.
  all: repeat match goal with
         | Hg : Py.getitem _ 0 = Py.Ok _ |- _ =>
             apply getitem_0_Ok in Hg as [? ->]
         | Hg : Py.getitem _ 0 = Py.Raise _ |- _ =>
             apply getitem_0_Raise in Hg as [-> ->]
         | Hf : Py.float_of_int _ = _ |- _ => rewrite Hf
         | Hd : Py.truediv _ _ = Py.Ok _ |- _ =>
             apply truediv_Ok in Hd as [-> _]
         | Hd : Py.truediv _ _ = Py.Raise _ |- _ =>
             apply truediv_Raise in Hd as [-> ->]
         end.
  all: try (by eexists).
  all: try (by repeat split).
  all: try (repeat split; by eexists).
  all: match goal with
       | Hf : Py.float_of_int _ = Py.Raise _ |- _ =>
           apply float_of_int_Raise in Hf as ->; by split
       end.
Qed.

End Properties.

(** ** The claims *)

(** Takes apart what [init_returns] says of the call that returned by
    [Hv]. *)
Ltac returned Hv :=
  let Hr := fresh "Hr" in
  pose proof (init_returns _ _ _ Hv) as Hr; cbv zeta in Hr;
  destruct Hr as
    (d0 & ds0 & x0 & target0 & Hshape0 & Hfloat0 & Hspi0 & Hagent0 &
     Htables0 & Hservers0 & Hdatasets0 & Hlearners0 & Hcheckpointers0 &
     Hparents0 & Hall0 & Hne0 & Hnew0 & Hnewt0 & Honline0 & Htarget0);
  subst.

Section Claims.
Context `{Networks}.
Implicit Types (a : DQNAgent.Args) (s : Store) (h : gmap loc Net).


(** C2, as the code has it: every table the constructor makes or stands
    up, in any call, removes in first-in-first-out order; the prioritized
    selector, with the given exponent, is its sampler, not its remover.
    Both are arguments of the framework's table.  A call that returns has
    made one table and stood it up in the server it keeps. *)
Theorem C2_remover_is_fifo a s :
  let o := DQNAgent.__init__ a s in
  (∀ t, t ∈ tables_made (trace o) ∨ t ∈ tables_stood_up (trace o) →
     reverb.remover t = reverb.selectors.Fifo ∧
     reverb.sampler t =
       reverb.selectors.Prioritized (DQNAgent.priority_exponent a)) ∧
  (∀ agent, value o = Py.Ok agent →
     ∃ t,
       tables_made (trace o) = [t] ∧
       tables_stood_up (trace o) = [t] ∧
       reverb.tables (DQNAgent._server agent) = [t]).
Proof.
  cbv zeta. pose proof (init_calls a s) as Hcalls. cbv zeta in Hcalls.
  destruct Hcalls as (Htables & Hservers & _).
  split.
  - unfold tables_stood_up. intros t [Ht | Ht].
    + destruct Htables as [Hnone | Hone].
      * rewrite Hnone in Ht. by apply elem_of_nil in Ht.
      * rewrite Hone in Ht. by apply list_elem_of_singleton in Ht as ->.
    + destruct Hservers as [Hnone | Hone].
      * rewrite Hnone in Ht. by apply elem_of_nil in Ht.
      * rewrite Hone in Ht. by apply list_elem_of_singleton in Ht as ->.
  - intros agent Hv. returned Hv. eexists. split; [exact Htables0|].
    unfold tables_stood_up. rewrite Hservers0. by split.
Qed.


(** C4: the target network is a deep copy of the online network, taken
    after the online network's variables are created.  In a call that
    returns, the learner receives the object kept as [self.network] and a
    second, distinct object; both are new, and both hold the state of the
    network after the calls of [create_variables] (on the network, on its
    decoder and, for a non-empty [encoder_type], on its projector), [d]
    being the observation's first dimension; mutating either of them
    afterwards leaves the other unchanged. *)
Theorem C4_target_network_is_deep_copy a s agent d ds :
  specs.shape (specs.observations (DQNAgent.environment_spec a)) = d :: ds →
  let o := DQNAgent.__init__ a s in
  value o = Py.Ok agent →
  let observations := specs.observations (DQNAgent.environment_spec a) in
  let n0 :=
    QNetworkWithEncoder
      (specs.num_values (specs.actions (DQNAgent.environment_spec a))) d
      (DQNAgent.encoder_type a) (DQNAgent.encoder_feature_dim a)
      (DQNAgent.projection_feature_dim a) in
  let n1 := create_variables Whole (spec_list [observations]) n0 in
  let n2 :=
    create_variables Decoder (spec_one (encoding_spec n1 observations)) n1 in
  let n3 :=
    if Py.bool_of_str (DQNAgent.encoder_type a)
    then create_variables Projector
           (spec_one (encoding_spec n2 observations)) n2
    else n2 in
  let online := DQNAgent.network agent in
  let target :=
    learning.target_network (agent.learner (DQNAgent.super agent)) in
  learning.network (agent.learner (DQNAgent.super agent)) = online ∧
  learners_made (trace o) = [agent.learner (DQNAgent.super agent)] ∧
  online ≠ target ∧
  heap s !! online = None ∧
  heap s !! target = None ∧
  heap (store o) !! online = Some n3 ∧
  heap (store o) !! target = Some n3 ∧
  (∀ f, heap (store (mutate target f (store o))) !! online = Some n3) ∧
  (∀ f, heap (store (mutate online f (store o))) !! target = Some n3).
Proof.
  cbv zeta. intros Hshape Hv. returned Hv.
  rewrite Hshape in Hshape0. injection Hshape0 as <- <-.
  cbv zeta.
  cbn [DQNAgent.network DQNAgent.super agent.learner learning.network
       learning.target_network].
  repeat split; try done.
  - intros f. unfold mutate. cbn [store heap].
    by rewrite lookup_alter_ne.
  - intros f. unfold mutate. cbn [store heap].
    by rewrite lookup_alter_ne.
Qed.

(** C5, as the code has it: in a call that returns, when no
    [policy_network] is given, the actor's policy is the sequence of the
    online network (the object the learner optimizes, kept as
    [self.network]) and an epsilon-greedy sampling step, so that on every
    input it applies the network and then samples from the epsilon-greedy
    distribution over the network's output, with the given epsilon when
    one is given; when a [policy_network] is given, it is the actor's
    policy as it is. *)
Theorem C5_default_policy_is_epsilon_greedy a s agent :
  value (DQNAgent.__init__ a s) = Py.Ok agent →
  (DQNAgent.policy_network a = None →
   ∃ eps,
     actors.policy_network (agent.actor (DQNAgent.super agent)) =
       snt.Sequential
         [snt.network_layer (DQNAgent.network agent);
          snt.epsilon_greedy_sample eps] ∧
     learning.network (agent.learner (DQNAgent.super agent)) =
       DQNAgent.network agent ∧
     (∀ e, DQNAgent.epsilon a = Some e → eps = e) ∧
     ∀ x,
       snt.Sequential_call
         [snt.network_layer (DQNAgent.network agent);
          snt.epsilon_greedy_sample eps] x =
       snt.Sample_epsilon_greedy (snt.Call (DQNAgent.network agent) x) eps) ∧
  (∀ given, DQNAgent.policy_network a = Some given →
     actors.policy_network (agent.actor (DQNAgent.super agent)) = given).
Proof.
  intros Hv. returned Hv.
  cbn [DQNAgent.network DQNAgent.super agent.actor agent.learner
       actors.policy_network learning.network].
  split.
  - intros ->. eexists. split; [reflexivity|]. split; [reflexivity|].
    split; [by intros e -> | reflexivity].
  - by intros given ->.
Qed.

(** C6: in a call that returns, a checkpointer is created if and only if
    [checkpoint] is true; it is created over the learner's state with
    directory [checkpoint_subpath], subdirectory "dqn_learner" and a
    period of 60 minutes, and it is kept in [_checkpointer], which is
    [None] otherwise.  A call of [update] on that agent calls the parent's
    [update] first.  When that returns and there is a checkpointer, its
    [save] is called next, and nothing else; when there is no checkpointer
    nothing is ever saved; when the parent's [update] raises, the
    exception is passed on and nothing is saved. *)
Theorem C6_checkpointer a s agent :
  let o := DQNAgent.__init__ a s in
  value o = Py.Ok agent →
  let c :=
    {| tf2_savers.directory := DQNAgent.checkpoint_subpath a;
       tf2_savers.objects_to_save :=
         learning.state (agent.learner (DQNAgent.super agent));
       tf2_savers.subdirectory := "dqn_learner";
       tf2_savers.time_delta_minutes := Py.float_literal 60 1 |} in
  checkpointers_made (trace o) =
    (if DQNAgent.checkpoint a then [c] else []) ∧
  DQNAgent._checkpointer agent =
    (if DQNAgent.checkpoint a then Some c else None) ∧
  ∀ s',
    let u := DQNAgent.update agent s' in
    (raises s' Agent_update = None →
       trace u =
         (if DQNAgent.checkpoint a
          then [Agent_update; Checkpointer_save c]
          else [Agent_update]) ∧
       value u =
         (if DQNAgent.checkpoint a
          then match raises s' (Checkpointer_save c) with
               | Some e => Py.Raise e
               | None => Py.Ok tt
               end
          else Py.Ok tt)) ∧
    (∀ e, raises s' Agent_update = Some e →
       value u = Py.Raise e ∧ trace u = [Agent_update]) ∧
    (DQNAgent.checkpoint a = false → saves (trace u) = []).
Proof.
  cbv zeta. intros Hv. returned Hv. cbv zeta.
  cbn [DQNAgent._checkpointer DQNAgent.super agent.learner].
  split; [exact Hcheckpointers0|]. split; [reflexivity|].
  intros [h' p' ls' r']. unfold DQNAgent.update.
  cbn [DQNAgent._checkpointer raises]. run.
  destruct (r' Agent_update) as [e|] eqn:Hparent.
  - run. split; [discriminate|].
    split; [by intros ? [= <-] | by destruct (DQNAgent.checkpoint a)].
  - destruct (DQNAgent.checkpoint a); run.
    + destruct (r' (Checkpointer_save _)); run;
        (split; [done|]); (split; [discriminate | discriminate]).
    + split; [done|]. split; [discriminate | done].
Qed.

(** C7: the adder handed to the actor is an n-step transition adder over
    a client of the address of the one server the constructor started,
    with the given [n_step] and [discount]. *)
Theorem C7_adder a s agent :
  let o := DQNAgent.__init__ a s in
  value o = Py.Ok agent →
  servers_started (trace o) = [DQNAgent._server agent] ∧
  actors.adder (agent.actor (DQNAgent.super agent)) =
    {| adders.client :=
         reverb.mkClient (address_of (DQNAgent._server agent));
       adders.n_step := DQNAgent.n_step a;
       adders.discount := DQNAgent.discount a |}.
Proof.
  cbv zeta. intros Hv. returned Hv. split; [exact Hservers0 | reflexivity].
Qed.

(** C8: the parent class is initialised once, with
    [max(batch_size, min_replay_size)] as minimum number of observations;
    when [batch_size] exceeds [min_replay_size] this is [batch_size] and
    not the given [min_replay_size]. *)
Theorem C8_min_observations a s agent :
  let o := DQNAgent.__init__ a s in
  value o = Py.Ok agent →
  parent_inits (trace o) = [DQNAgent.super agent] ∧
  agent.min_observations (DQNAgent.super agent) =
    Z.max (DQNAgent.batch_size a) (DQNAgent.min_replay_size a) ∧
  ((DQNAgent.min_replay_size a < DQNAgent.batch_size a)%Z →
     agent.min_observations (DQNAgent.super agent) = DQNAgent.batch_size a ∧
     agent.min_observations (DQNAgent.super agent) ≠
       DQNAgent.min_replay_size a).
Proof.
  cbv zeta. intros Hv. returned Hv. split; [exact Hparents0|].
  cbn [DQNAgent.super agent.min_observations]. split; [reflexivity | lia].
Qed.

(** C9: the parent class receives [float(batch_size) / samples_per_insert]
    as [observations_per_step], and the division is not guarded.  A call
    that returns has a [samples_per_insert] other than zero and hands the
    parent that quotient.  A call with a zero [samples_per_insert] never
    returns and never initialises the parent.  In a call that gets as far
    as the division (the frameworks let every call return, the
    observation has a first dimension, [float(batch_size)] is [x]) a zero
    [samples_per_insert] raises [ZeroDivisionError], and with any other
    [samples_per_insert] the division succeeds and the constructor
    returns. *)
Theorem C9_observations_per_step a s :
  let o := DQNAgent.__init__ a s in
  (∀ agent, value o = Py.Ok agent →
     Py.is_zero (DQNAgent.samples_per_insert a) = false ∧
     parent_inits (trace o) = [DQNAgent.super agent] ∧
     agent.observations_per_step (DQNAgent.super agent) =
       SFdiv Py.prec Py.emax (Py.nearest (DQNAgent.batch_size a))
         (DQNAgent.samples_per_insert a)) ∧
  (Py.is_zero (DQNAgent.samples_per_insert a) = true →
     (∀ agent, value o ≠ Py.Ok agent) ∧ parent_inits (trace o) = []) ∧
  (∀ d ds x,
     all_return s (trace o) →
     specs.shape (specs.observations (DQNAgent.environment_spec a)) =
       d :: ds →
     Py.float_of_int (DQNAgent.batch_size a) = Py.Ok x →
     if Py.is_zero (DQNAgent.samples_per_insert a)
     then value o = Py.Raise Py.ZeroDivisionError
     else ∃ agent, value o = Py.Ok agent).
Proof.
  cbv zeta. split; [|split].
  - intros agent Hv. returned Hv. split; [done|]. split; [exact Hparents0|].
    cbn [DQNAgent.super agent.observations_per_step].
    by rewrite (float_of_int_Ok _ _ Hfloat0).
  - intros Hzero.
    pose proof (init_calls a s) as Hcalls. cbv zeta in Hcalls.
    destruct Hcalls as (_ & _ & _ & _ & Hparent).
    split.
    + intros agent Hv. returned Hv. congruence.
    + destruct Hparent as [Hnone | Hspi]; [exact Hnone | congruence].
  - intros d ds x Hall Hshape Hfloat.
    pose proof (init_own_outcome a s Hall) as Hown. cbv zeta in Hown.
    rewrite Hshape, Hfloat in Hown.
    destruct (Py.is_zero _); [apply Hown | exact Hown].
Qed.

(** With a policy network given, the constructor never looks at
    [epsilon]. *)
Lemma epsilon_ignored a s given e :
  DQNAgent.policy_network a = Some given →
  DQNAgent.__init__ (DQNAgent.with_epsilon e a) s = DQNAgent.__init__ a s.
Proof.
  intros Hgiven.
  unfold DQNAgent.__init__, DQNAgent.with_epsilon.
  cbn [DQNAgent.learner DQNAgent.wandb DQNAgent.environment_spec
       DQNAgent.encoder_type DQNAgent.encoder_feature_dim
       DQNAgent.projection_feature_dim DQNAgent.batch_size
       DQNAgent.prefetch_size DQNAgent.target_update_period
       DQNAgent.samples_per_insert DQNAgent.min_replay_size
       DQNAgent.max_replay_size DQNAgent.importance_sampling_exponent
       DQNAgent.priority_exponent DQNAgent.n_step DQNAgent.epsilon
       DQNAgent.learning_rate DQNAgent.discount DQNAgent.logger
       DQNAgent.checkpoint DQNAgent.checkpoint_subpath
       DQNAgent.policy_network DQNAgent.beta].
  rewrite Hgiven. lazy beta iota zeta. reflexivity.
Qed.

(** C10: with neither [policy_network] nor [epsilon] given, the policy is
    epsilon-greedy over the online network with a non-trainable variable
    of value 0.05 as epsilon; a given [policy_network] is the actor's
    policy as it is, and the call then does the same whatever [epsilon]
    is passed. *)
Theorem C10_default_epsilon_and_given_policy a s agent :
  value (DQNAgent.__init__ a s) = Py.Ok agent →
  (DQNAgent.policy_network a = None → DQNAgent.epsilon a = None →
     actors.policy_network (agent.actor (DQNAgent.super agent)) =
       snt.Sequential
         [snt.network_layer (DQNAgent.network agent);
          snt.epsilon_greedy_sample
            (tf.Variable_ (Py.float_literal 5 100) false)] ∧
     learning.network (agent.learner (DQNAgent.super agent)) =
       DQNAgent.network agent) ∧
  (∀ given, DQNAgent.policy_network a = Some given →
     actors.policy_network (agent.actor (DQNAgent.super agent)) = given ∧
     ∀ e, DQNAgent.__init__ (DQNAgent.with_epsilon e a) s =
          DQNAgent.__init__ a s).
Proof.
  intros Hv.
  split; [intros Hnone Heps | intros given Hgiven; split].
  3: intros e; by apply epsilon_ignored with given.
  all: returned Hv.
  all: cbn [DQNAgent.super DQNAgent.network agent.actor agent.learner
            actors.policy_network learning.network].
  - by rewrite Hnone, Heps.
  - by rewrite Hgiven.
Qed.

(** ** Further properties of the constructor *)

(** The constructor returns exactly when the frameworks let every call it
    makes return, the observation has a first dimension,
    [float(batch_size)] is representable and [samples_per_insert] is not
    zero: the lookup, the conversion and the division are the only
    failures of the constructor's own. *)
Theorem init_returns_iff a s :
  let o := DQNAgent.__init__ a s in
  (∃ agent, value o = Py.Ok agent) ↔
  all_return s (trace o) ∧
  specs.shape (specs.observations (DQNAgent.environment_spec a)) ≠ [] ∧
  (∃ x, Py.float_of_int (DQNAgent.batch_size a) = Py.Ok x) ∧
  Py.is_zero (DQNAgent.samples_per_insert a) = false.
Proof.
  cbv zeta. split.
  - intros [agent Hv]. returned Hv.
    split; [exact Hall0|]. split; [congruence|]. split; [by eexists | done].
  - intros (Hall & Hshape & [x Hfloat] & Hspi).
    pose proof (init_own_outcome a s Hall) as Hown. cbv zeta in Hown.
    destruct (specs.shape _); [done|].
    by rewrite Hfloat, Hspi in Hown.
Qed.

(** When the frameworks let every call return, the constructor raises
    [IndexError] exactly on a scalar observation (an empty shape).  By
    then a server has been started, but no network object has been
    created and no learner constructed. *)
Theorem init_scalar_observation a s :
  let o := DQNAgent.__init__ a s in
  all_return s (trace o) →
  (value o = Py.Raise Py.IndexError ↔
   specs.shape (specs.observations (DQNAgent.environment_spec a)) = []) ∧
  (specs.shape (specs.observations (DQNAgent.environment_spec a)) = [] →
   heap (store o) = heap s ∧
   learners_made (trace o) = [] ∧
   ∃ srv, servers_started (trace o) = [srv]).
Proof.
  cbv zeta. intros Hall.
  pose proof (init_own_outcome a s Hall) as Hown. cbv zeta in Hown.
  destruct (specs.shape _) as [|d ds].
  - by destruct Hown as (Hvalue & Hheap & Hlearners & Hserver).
  - split; [|done]. split; [|done].
    destruct (Py.float_of_int _).
    + destruct (Py.is_zero _).
      * destruct Hown as [-> _]. discriminate.
      * destruct Hown as [agent ->]. discriminate.
    + destruct Hown as [-> _]. discriminate.
Qed.

(** Everything the agent uses to reach the replay server uses one address,
    that of the server the agent keeps: the learner's replay client, the
    learner's dataset and the client of the actor's adder.  The server
    listens on the port it was handed. *)
Theorem init_one_address a s agent :
  let o := DQNAgent.__init__ a s in
  value o = Py.Ok agent →
  let address := address_of (DQNAgent._server agent) in
  let l := agent.learner (DQNAgent.super agent) in
  reverb.port (DQNAgent._server agent) = free_port s ∧
  learning.replay_client l = reverb.mkTFClient address ∧
  datasets.server_address (learning.dataset l) = address ∧
  adders.client (actors.adder (agent.actor (DQNAgent.super agent))) =
    reverb.mkClient address.
Proof.
  cbv zeta. intros Hv. returned Hv. by repeat split.
Qed.

(** With no policy network given, the policy acts with the online network
    only: the target network is not among its layers. *)
Theorem default_policy_avoids_target a s agent layers :
  DQNAgent.policy_network a = None →
  value (DQNAgent.__init__ a s) = Py.Ok agent →
  actors.policy_network (agent.actor (DQNAgent.super agent)) =
    snt.Sequential layers →
  snt.network_layer
    (learning.target_network (agent.learner (DQNAgent.super agent)))
  ∉ layers.
Proof.
  intros Hpolicy Hv. returned Hv.
  cbn [DQNAgent.super agent.actor agent.learner actors.policy_network
       learning.target_network].
  rewrite Hpolicy. intros [= <-].
  intros [[=]|[[=]|[]%elem_of_nil]%elem_of_cons]%elem_of_cons.
  congruence.
Qed.

(** For a call with the signature's default arguments that returns:
    updating starts after [max(256, 1000) = 1000] observations and happens
    every [256 / 32.0 = 8.0] observations, the checkpointer writes under
    "~/acme/", and the policy is epsilon-greedy on the online network with
    epsilon 0.05. *)
Theorem init_defaults (learner wandb : Py.object)
    (env : specs.EnvironmentSpec) s agent :
  value (DQNAgent.__init__ (DQNAgent.defaults learner wandb env) s) =
    Py.Ok agent →
  agent.min_observations (DQNAgent.super agent) = 1000%Z ∧
  agent.observations_per_step (DQNAgent.super agent) = Py.nearest 8 ∧
  (∃ c, DQNAgent._checkpointer agent = Some c ∧
        tf2_savers.directory c = "~/acme/") ∧
  actors.policy_network (agent.actor (DQNAgent.super agent)) =
    snt.Sequential
      [snt.network_layer (DQNAgent.network agent);
       snt.epsilon_greedy_sample
         (tf.Variable_ (Py.float_literal 5 100) false)].
Proof.
  intros Hv. returned Hv.
  apply float_of_int_Ok in Hfloat0 as ->.
  cbn [DQNAgent.super DQNAgent.network DQNAgent._checkpointer agent.actor
       agent.min_observations agent.observations_per_step
       actors.policy_network
       DQNAgent.defaults DQNAgent.batch_size DQNAgent.min_replay_size
       DQNAgent.samples_per_insert DQNAgent.checkpoint
       DQNAgent.policy_network DQNAgent.epsilon].
  split; [reflexivity|]. split; [by vm_compute|].
  split; [by eexists | reflexivity].
Qed.

End Claims.

(** ** The address and the port *)

(** The decimal text of an int reads back as that int. *)
Lemma str_reads_back n :
  Z.of_int <$> NilZero.int_of_string (Py.str n) = Some n.
Proof.
  unfold Py.str. rewrite NilZero.isi.
  - cbn. f_equal. apply DecimalZ.of_to.
  - destruct n; cbn; try discriminate.
    intros [= Hnil]. by apply DecimalPos.Unsigned.to_uint_nonnil in Hnil.
  - destruct n; cbn; try discriminate.
    intros [= Hnil]. by apply DecimalPos.Unsigned.to_uint_nonnil in Hnil.
Qed.

(** The address tells the port: servers on different ports have different
    addresses, so an agent's clients cannot reach another agent's server. *)
Theorem address_of_ports (s1 s2 : reverb.Server) :
  reverb.port s1 ≠ reverb.port s2 → address_of s1 ≠ address_of s2.
Proof.
  intros Hports. unfold address_of. cbn [String.append]. intros [= Hstr].
  change (Py.str (reverb.port s1) = Py.str (reverb.port s2)) in Hstr.
  pose proof (str_reads_back (reverb.port s1)) as H1.
  rewrite Hstr, str_reads_back in H1. by injection H1.
Qed.

(** ** The properties on concrete calls *)

(** C2 as stated fails on the default call: the table's remover is not a
    prioritized selector, whatever the exponent. *)
Lemma C2_counterexample :
  ¬ ∀ t,
      t ∈ tables_stood_up
            (trace (DQNAgent.__init__ sample.args sample.empty_store)) →
      ∃ e, reverb.remover t = reverb.selectors.Prioritized e.
Proof.
  intros Hc.
  destruct (Hc _ (list_elem_of_here _ _)) as [e He].
  vm_compute in He. discriminate He.
Qed.

(** C4 on the default call. *)
Lemma C4_witness :
  let o := DQNAgent.__init__ sample.args sample.empty_store in
  specs.shape (specs.observations (DQNAgent.environment_spec sample.args)) =
    [4%Z] ∧
  ∃ agent,
    value o = Py.Ok agent ∧
    DQNAgent.network agent ≠
      learning.target_network (agent.learner (DQNAgent.super agent)) ∧
    is_Some (heap (store o) !! DQNAgent.network agent) ∧
    heap (store o) !! DQNAgent.network agent =
      heap (store o)
        !! learning.target_network (agent.learner (DQNAgent.super agent)).
Proof.
  split; [reflexivity|]. eexists. split; [reflexivity|].
  destruct (C4_target_network_is_deep_copy sample.args sample.empty_store
              _ 4 [] eq_refl eq_refl)
    as (_ & _ & Hne & _ & _ & Honline & Htarget & _).
  split; [exact Hne|]. split; [by eexists | by etransitivity].
Defined.

(** C5 as stated fails on a call that passes a policy network: the actor's
    policy is then no [Sequential] at all, so the network is not wrapped. *)
Lemma C5_counterexample :
  ∃ agent,
    value (DQNAgent.__init__ sample.args_with_policy sample.empty_store) =
      Py.Ok agent ∧
    ∀ layers,
      actors.policy_network (agent.actor (DQNAgent.super agent)) ≠
        snt.Sequential layers.
Proof.
  eexists. split; [reflexivity|]. intros layers Hc.
  vm_compute in Hc. discriminate Hc.
Qed.

(** C5, amended, on the default call and on a call that passes a policy
    network. *)
Lemma C5_witness :
  (∃ agent eps,
     value (DQNAgent.__init__ sample.args sample.empty_store) = Py.Ok agent ∧
     actors.policy_network (agent.actor (DQNAgent.super agent)) =
       snt.Sequential
         [snt.network_layer (DQNAgent.network agent);
          snt.epsilon_greedy_sample eps] ∧
     snt.Sequential_call
       [snt.network_layer (DQNAgent.network agent);
        snt.epsilon_greedy_sample eps] snt.Input =
     snt.Sample_epsilon_greedy
       (snt.Call (DQNAgent.network agent) snt.Input) eps) ∧
  (∃ agent,
     value (DQNAgent.__init__ sample.args_with_policy sample.empty_store) =
       Py.Ok agent ∧
     actors.policy_network (agent.actor (DQNAgent.super agent)) =
       sample.my_policy).
Proof.
  split.
  - eexists.
    destruct (C5_default_policy_is_epsilon_greedy sample.args
                sample.empty_store _ eq_refl)
      as [Hdefault _].
    destruct (Hdefault eq_refl) as (eps & Hpolicy & _ & _ & Hcall).
    exists eps. split; [reflexivity|]. split; [exact Hpolicy | apply Hcall].
  - eexists. split; [reflexivity|].
    destruct (C5_default_policy_is_epsilon_greedy sample.args_with_policy
                sample.empty_store _ eq_refl)
      as [_ Hgiven].
    apply Hgiven. reflexivity.
Defined.

(** C6 on the default call, which checkpoints: an update whose parent
    update returns saves, one whose parent update raises does not; and on
    a call with [checkpoint=False], which never saves. *)
Lemma C6_witness :
  (∃ agent c,
     value (DQNAgent.__init__ sample.args sample.empty_store) = Py.Ok agent ∧
     DQNAgent._checkpointer agent = Some c ∧
     tf2_savers.directory c = "~/acme/" ∧
     tf2_savers.subdirectory c = "dqn_learner" ∧
     trace (DQNAgent.update agent sample.empty_store) =
       [Agent_update; Checkpointer_save c] ∧
     value (DQNAgent.update agent sample.failing_update_store) =
       Py.Raise Py.ZeroDivisionError ∧
     trace (DQNAgent.update agent sample.failing_update_store) =
       [Agent_update]) ∧
  (∃ agent,
     value (DQNAgent.__init__ sample.args_large_batch sample.empty_store) =
       Py.Ok agent ∧
     DQNAgent._checkpointer agent = None ∧
     trace (DQNAgent.update agent sample.empty_store) = [Agent_update]).
Proof.
  split.
  - eexists.
    destruct (C6_checkpointer sample.args sample.empty_store _ eq_refl)
      as (_ & Hfield & Hupdate).
    eexists. split; [reflexivity|]. split; [exact Hfield|].
    split; [reflexivity|]. split; [reflexivity|].
    destruct (Hupdate sample.empty_store) as (Hreturns & _ & _).
    destruct (Hupdate sample.failing_update_store) as (_ & Hraises & _).
    split; [apply Hreturns; reflexivity|].
    apply (Hraises Py.ZeroDivisionError). reflexivity.
  - eexists.
    destruct (C6_checkpointer sample.args_large_batch sample.empty_store
                _ eq_refl)
      as (_ & Hfield & Hupdate).
    split; [reflexivity|]. split; [exact Hfield|].
    destruct (Hupdate sample.empty_store) as (Hreturns & _ & _).
    apply Hreturns. reflexivity.
Defined.

(** C7 on the default call, the server listening on port 41000. *)
Lemma C7_witness :
  ∃ agent,
    value (DQNAgent.__init__ sample.args sample.empty_store) = Py.Ok agent ∧
    actors.adder (agent.actor (DQNAgent.super agent)) =
      {| adders.client := reverb.mkClient "localhost:41000";
         adders.n_step := 5;
         adders.discount := Py.float_literal 99 100 |}.
Proof.
  eexists. split; [reflexivity|].
  apply (C7_adder sample.args sample.empty_store _ eq_refl).
Defined.

(** C8 on a call with [batch_size=2000] and [min_replay_size=1000]. *)
Lemma C8_witness :
  ∃ agent,
    value (DQNAgent.__init__ sample.args_large_batch sample.empty_store) =
      Py.Ok agent ∧
    agent.min_observations (DQNAgent.super agent) = 2000%Z ∧
    agent.min_observations (DQNAgent.super agent) ≠ 1000%Z.
Proof.
  eexists. split; [reflexivity|].
  destruct (C8_min_observations sample.args_large_batch sample.empty_store
              _ eq_refl)
    as (_ & _ & Hlarger).
  apply Hlarger. reflexivity.
Defined.

(** C9 on a call with [samples_per_insert=0.0] and on the default call,
    the frameworks letting every call return. *)
Lemma C9_witness :
  (Py.is_zero (DQNAgent.samples_per_insert sample.args_zero_samples) = true ∧
   all_return sample.empty_store
     (trace
        (DQNAgent.__init__ sample.args_zero_samples sample.empty_store)) ∧
   value (DQNAgent.__init__ sample.args_zero_samples sample.empty_store) =
     Py.Raise Py.ZeroDivisionError ∧
   parent_inits
     (trace
        (DQNAgent.__init__ sample.args_zero_samples sample.empty_store)) =
     []) ∧
  (∃ agent,
     value (DQNAgent.__init__ sample.args sample.empty_store) = Py.Ok agent ∧
     agent.observations_per_step (DQNAgent.super agent) =
       SFdiv Py.prec Py.emax (Py.nearest 256) (Py.float_literal 32 1)).
Proof.
  split.
  - split; [reflexivity|]. split; [by intros c _|].
    destruct (C9_observations_per_step sample.args_zero_samples
                sample.empty_store)
      as (_ & Hzero & Hreached).
    split.
    + apply (Hreached 4%Z [] (Py.nearest 256)); [by intros c _ | done | done].
    + apply Hzero. reflexivity.
  - eexists. split; [reflexivity|].
    destruct (C9_observations_per_step sample.args sample.empty_store)
      as (Hreturned & _ & _).
    apply Hreturned. reflexivity.
Defined.

(** C10 on the default call and on a call that passes a policy network. *)
Lemma C10_witness :
  (∃ agent,
     value (DQNAgent.__init__ sample.args sample.empty_store) = Py.Ok agent ∧
     actors.policy_network (agent.actor (DQNAgent.super agent)) =
       snt.Sequential
         [snt.network_layer (DQNAgent.network agent);
          snt.epsilon_greedy_sample
            (tf.Variable_ (Py.float_literal 5 100) false)]) ∧
  (∃ agent,
     value (DQNAgent.__init__ sample.args_with_policy sample.empty_store) =
       Py.Ok agent ∧
     actors.policy_network (agent.actor (DQNAgent.super agent)) =
       sample.my_policy ∧
     DQNAgent.__init__
       (DQNAgent.with_epsilon (Some (tf.constant sample.zero))
          sample.args_with_policy) sample.empty_store =
     DQNAgent.__init__ sample.args_with_policy sample.empty_store).
Proof.
  split.
  - eexists. split; [reflexivity|].
    destruct (C10_default_epsilon_and_given_policy sample.args
                sample.empty_store _ eq_refl)
      as [Hdefault _].
    apply Hdefault; reflexivity.
  - eexists. split; [reflexivity|].
    destruct (C10_default_epsilon_and_given_policy sample.args_with_policy
                sample.empty_store _ eq_refl)
      as [_ Hgiven].
    destruct (Hgiven sample.my_policy eq_refl) as [Hpolicy Hepsilon].
    split; [exact Hpolicy | apply Hepsilon].
Defined.

(** The default call on scalar observations, the frameworks letting every
    call return. *)
Lemma init_scalar_observation_witness :
  let o := DQNAgent.__init__ sample.args_scalar sample.empty_store in
  all_return sample.empty_store (trace o) ∧
  value o = Py.Raise Py.IndexError ∧
  heap (store o) = ∅ ∧
  learners_made (trace o) = [].
Proof.
  cbv zeta. split; [by intros c _|].
  destruct (init_scalar_observation sample.args_scalar sample.empty_store)
    as [Hiff Hthen]; [by intros c _|].
  split; [by apply Hiff|].
  destruct (Hthen eq_refl) as (Hheap & Hlearners & _).
  split; [exact Hheap | exact Hlearners].
Defined.

Lemma init_one_address_witness :
  ∃ agent,
    value (DQNAgent.__init__ sample.args sample.empty_store) = Py.Ok agent ∧
    learning.replay_client (agent.learner (DQNAgent.super agent)) =
      reverb.mkTFClient "localhost:41000" ∧
    adders.client (actors.adder (agent.actor (DQNAgent.super agent))) =
      reverb.mkClient "localhost:41000".
Proof.
  eexists. split; [reflexivity|].
  destruct (init_one_address sample.args sample.empty_store _ eq_refl)
    as (_ & Hreplay & _ & Hadder).
  split; [exact Hreplay | exact Hadder].
Defined.

Lemma default_policy_avoids_target_witness :
  DQNAgent.policy_network sample.args = None ∧
  ∃ agent,
    value (DQNAgent.__init__ sample.args sample.empty_store) = Py.Ok agent ∧
    snt.network_layer 2%positive ∉
      [snt.network_layer (DQNAgent.network agent);
       snt.epsilon_greedy_sample
         (tf.Variable_ (Py.float_literal 5 100) false)].
Proof.
  split; [reflexivity|]. eexists. split; [reflexivity|].
  apply (default_policy_avoids_target sample.args sample.empty_store _ _
           eq_refl eq_refl eq_refl).
Defined.

Lemma address_of_ports_witness :
  (41000 ≠ 41001)%Z ∧
  address_of {| reverb.tables := []; reverb.port := 41000 |} ≠
    address_of {| reverb.tables := []; reverb.port := 41001 |}.
Proof.
  split; [lia|].
  apply (address_of_ports {| reverb.tables := []; reverb.port := 41000 |}
           {| reverb.tables := []; reverb.port := 41001 |}).
  cbn [reverb.port]. lia.
Defined.

(** The default call on [cartpole]. *)
Lemma init_defaults_witness :
  ∃ agent,
    value (DQNAgent.__init__ sample.args sample.empty_store) = Py.Ok agent ∧
    agent.min_observations (DQNAgent.super agent) = 1000%Z ∧
    agent.observations_per_step (DQNAgent.super agent) = Py.nearest 8.
Proof.
  eexists. split; [reflexivity|].
  destruct (init_defaults (Py.Object 1) (Py.Object 2) sample.cartpole
              sample.empty_store _ eq_refl)
    as (Hmin & Hstep & _).
  split; [exact Hmin | exact Hstep].
Defined.

(** ** Runs of the model *)

(** A scalar observation has no first dimension: the constructor raises
    [IndexError] after the server is started and the dataset made, before
    any network exists. *)
Example scalar_observation :
  let o := DQNAgent.__init__ sample.args_scalar sample.empty_store in
  value o = Py.Raise Py.IndexError ∧
  length (servers_started (trace o)) = 1 ∧
  length (datasets_made (trace o)) = 1 ∧
  heap (store o) = ∅.
Proof. by vm_compute. Qed.

(** With frameworks that reject a table without room, a call with
    [max_replay_size=0] stops at [reverb.Table]: no server is started. *)
Example table_without_room :
  let o := DQNAgent.__init__ sample.args_no_room sample.validating_store in
  value o = Py.Raise Py.ValueError ∧
  servers_started (trace o) = [] ∧
  length (tables_made (trace o)) = 1.
Proof. by vm_compute. Qed.

(** With frameworks that reject a dataset without a positive batch size,
    a call with [batch_size=0] stops at [make_reverb_dataset]: the server
    is running, no network exists and no learner is constructed. *)
Example batch_size_zero :
  let o :=
    DQNAgent.__init__
      (sample.make sample.cartpole 0 sample.thirty_two None true None)
      sample.validating_store in
  value o = Py.Raise Py.ValueError ∧
  length (servers_started (trace o)) = 1 ∧
  learners_made (trace o) = [] ∧
  heap (store o) = ∅.
Proof. by vm_compute. Qed.

(** Two agents constructed one after the other get servers on different
    ports. *)
Example two_agents :
  ∃ first second,
    value (DQNAgent.__init__ sample.args sample.empty_store) = Py.Ok first ∧
    value
      (DQNAgent.__init__ sample.args
         (store (DQNAgent.__init__ sample.args sample.empty_store))) =
      Py.Ok second ∧
    reverb.port (DQNAgent._server first) ≠
      reverb.port (DQNAgent._server second).
Proof.
  eexists _, _. split; [reflexivity|]. split; [reflexivity|].
  vm_compute. discriminate.
Qed.

(** The default call returns an agent that updates after
    [max(256, 1000) = 1000] observations, every [256 / 32.0 = 8.0]
    observations. *)
Example default_call :
  ∃ agent,
    value (DQNAgent.__init__ sample.args sample.empty_store) = Py.Ok agent ∧
    agent.min_observations (DQNAgent.super agent) = 1000%Z ∧
    agent.observations_per_step (DQNAgent.super agent) = Py.nearest 8.
Proof. eexists. split; [reflexivity|]. by vm_compute. Qed.
